(** * pyyoutube.utils.params_checker

    A shallow embedding of the parameter validators of
    [pyyoutube/utils/params_checker.py] and the properties its specification
    states about them.

    Python values are a small universe of dynamically typed values, the
    exceptions the module can raise are an inductive type, and a function
    body is a computation in a monad that threads the log of the [logging]
    module and either returns a value or raises. *)

From Stdlib Require Import Ascii.
From stdpp Require Import base list strings gmap.

Set Warnings "-register-all".

Local Open Scope string_scope.
Local Open Scope list_scope.

(** ** Python values *)

(** The values the validators dispatch on: [None], [str] and the three
    collections they accept, with [int] and [bytes] for the types they do
    not ([bytes] is the one that has a [split] method and still cannot be
    split on a [str]).  The items of a collection are values of any type.
    [PySet] lists the members of a set object in the order in which the
    object iterates over them. *)
Inductive pyval : Type :=
| PyNone
| PyStr (s : string)
| PyBytes (b : string)
| PyInt (z : Z)
| PyList (items : list pyval)
| PyTuple (items : list pyval)
| PySet (items : list pyval).

Definition pyval_eq_dec : ∀ a b : pyval, {a = b} + {a ≠ b}.
Proof.
  fix IH 1.
  decide equality;
    first [ apply String.string_dec | apply Z.eq_dec | apply (List.list_eq_dec IH) ].
Defined.

#[global] Instance pyval_eq_decision : EqDecision pyval := pyval_eq_dec.

(** [value is None] *)
Definition is_none (v : pyval) : bool :=
  match v with PyNone => true | _ => false end.

(** [isinstance(value, str)] *)
Definition isinstance_str (v : pyval) : bool :=
  match v with PyStr _ => true | _ => false end.

(** [isinstance(value, set)] *)
Definition isinstance_set (v : pyval) : bool :=
  match v with PySet _ => true | _ => false end.

(** [isinstance(value, (list, tuple, set))], with the items the collection
    iterates over. *)
Definition collection_items (v : pyval) : option (list pyval) :=
  match v with
  | PyList items | PyTuple items | PySet items => Some items
  | _ => None
  end.

(** Whether the type of the value has a [split] method: [str] and [bytes]
    have one, the other types do not. *)
Definition has_split (v : pyval) : bool :=
  match v with PyStr _ | PyBytes _ => true | _ => false end.

(** [hash(v)] succeeds: lists and sets are unhashable, and so is a tuple
    with an unhashable item. *)
Fixpoint hashable (v : pyval) : bool :=
  match v with
  | PyNone | PyStr _ | PyBytes _ | PyInt _ => true
  | PyTuple items => forallb hashable items
  | PyList _ | PySet _ => false
  end.

(** The strings of a list of values, leaving out what is not a [str]. *)
Definition strs_of (items : list pyval) : list string :=
  omap (λ v, match v with PyStr s => Some s | _ => None end) items.

(** ** Strings *)

(** [s.split(sep)] for a separator of one character.  A Python [str] is a
    sequence of code points and a [string] a sequence of bytes; the comma is
    a single byte that occurs in no multi-byte UTF-8 sequence, so both split
    at the same places. *)
Fixpoint str_split (sep : ascii) (s : string) : list string :=
  match s with
  | EmptyString => [EmptyString]
  | String c rest =>
      if decide (c = sep) then EmptyString :: str_split sep rest
      else match str_split sep rest with
           | tok :: toks => String c tok :: toks
           | [] => [String c EmptyString]
           end
  end.

(** [sep.join(items)] on strings. *)
Fixpoint str_join (sep : string) (items : list string) : string :=
  match items with
  | [] => ""
  | [item] => item
  | item :: rest => item +:+ sep +:+ str_join sep rest
  end.

(** [sub in s] *)
Definition contains (sub s : string) : Prop :=
  ∃ pre post, s = pre +:+ sub +:+ post.

(** Whether the character occurs in the string. *)
Fixpoint occurs (c : ascii) (s : string) : bool :=
  match s with
  | EmptyString => false
  | String c' rest => bool_decide (c' = c) || occurs c rest
  end.

Definition comma : ascii := ","%char.

(** ** Exceptions, log records and the monad of function bodies *)

(** Modelled from the spec: [pyyoutube.error.ErrorCode] is not among the
    sources; the specification gives the two kinds the validators use. *)
Inductive ErrorCode : Type := MISSING_PARAMS | INVALID_PARAMS.

(** Modelled from the spec: [pyyoutube.error.PyYouTubeException] built from
    an [ErrorMessage] carries the status code and the message.  The other
    constructors are the built-in exceptions the module can meet. *)
Inductive exn : Type :=
| PyYouTubeException (status_code : ErrorCode) (message : string)
| AttributeError
| TypeError
| ValueError
| KeyError (key : string).

Inductive LogLevel : Type := DEBUG | INFO | WARNING | ERROR | CRITICAL.

Record LogRecord : Type := mkLogRecord { levelname : LogLevel; msg : string }.

Inductive outcome (A : Type) : Type :=
| Return (a : A)
| Raise (e : exn).
Arguments Return {A} a.
Arguments Raise {A} e.

(** A function body: from the log so far to an outcome and the log after. *)
Definition Py (A : Type) : Type := list LogRecord → outcome A * list LogRecord.

#[global] Instance Py_ret : MRet Py := λ A a log, (Return a, log).

#[global] Instance Py_bind : MBind Py := λ A B f m log,
  match m log with
  | (Return a, log') => f a log'
  | (Raise e, log') => (Raise e, log')
  end.

Definition raise {A : Type} (e : exn) : Py A := λ log, (Raise e, log).

(** [try: body except ...: handler]; [handler e] is [None] for an exception
    no clause matches, which then propagates. *)
Definition try_except {A : Type} (body : Py A) (handler : exn → option (Py A)) : Py A :=
  λ log,
    match body log with
    | (Return a, log') => (Return a, log')
    | (Raise e, log') =>
        match handler e with
        | Some h => h log'
        | None => (Raise e, log')
        end
    end.

(** [logging.warning(message)] *)
Definition logging_warning (message : string) : Py unit :=
  λ log, (Return tt, log ++ [mkLogRecord WARNING message]).

(** ** Built-in operations *)

(** [param.split(",")]: the attribute lookup fails on a type without a
    [split] method, and [bytes.split] refuses a [str] separator.  The call
    is duck-typed in the source; objects of other types that bring a [split]
    of their own are not among the values modelled here, and nothing below
    is stated about them. *)
Definition py_split (sep : ascii) (param : pyval) : Py (list pyval) :=
  match param with
  | PyStr s => mret (PyStr <$> str_split sep s)
  | PyBytes _ => raise TypeError
  | _ => raise AttributeError
  end.

(** [sep.join(items)]: every item has to be a [str]. *)
Definition py_join (sep : string) (items : list pyval) : Py string :=
  if forallb isinstance_str items then mret (str_join sep (strs_of items))
  else raise TypeError.

(** [d[key]] *)
Definition dict_getitem {V : Type} (d : gmap string V) (key : string) : Py V :=
  match d !! key with
  | Some v => mret v
  | None => raise (KeyError key)
  end.

(** [support.issuperset(parts)] on set objects. *)
Definition set_issuperset (support parts : list pyval) : bool :=
  forallb (λ part, bool_decide (part ∈ support)) parts.

(** ** Sample parameters *)

(** A table with two resources, for running the validators. *)
Definition sample_mapping : gmap string (list string) :=
  {[ "videos" := ["id"; "snippet"; "statistics"];
     "channels" := ["id"; "snippet"] ]}.

(** The iteration order of a set that keeps its members as it was given
    them. *)
Definition insertion_order (items : list pyval) : list pyval := items.

(** The iteration order of a set that goes through its members backwards. *)
Definition reverse_order (items : list pyval) : list pyval := reverse items.

(** ** The validators *)

Section params_checker.

(** [pyyoutube.utils.constants.RESOURCE_PARTS_MAPPING], a dictionary from
    a resource name to the set of the parts it supports.  The table is not
    part of this module and is left open; a set of strings is given by the
    list of its members in iteration order. *)
Variable RESOURCE_PARTS_MAPPING : gmap string (list string).

(** The iteration order of a set object is fixed by the hash table behind
    it and left open here: [set_order items] is the order in which a set
    newly built from the distinct [items] iterates over them, and
    [difference_order items] the same for the set that [difference]
    builds from the members it keeps. *)
Variable set_order : list pyval → list pyval.
Variable difference_order : list pyval → list pyval.
Hypothesis set_order_perm : ∀ items, set_order items ≡ₚ items.
Hypothesis difference_order_perm : ∀ items, difference_order items ≡ₚ items.

(** [RESOURCE_PARTS_MAPPING[resource]] as a set object. *)
Definition resource_parts (resource : string) : Py (list pyval) :=
  parts ← dict_getitem RESOURCE_PARTS_MAPPING resource;
  mret (PyStr <$> parts).

(** [set(items)]: hashes every item and keeps one of each. *)
Definition py_set (items : list pyval) : Py (list pyval) :=
  if forallb hashable items then mret (set_order (remove_dups items))
  else raise TypeError.

(** [parts.difference(support)] *)
Definition set_difference (parts support : list pyval) : list pyval :=
  difference_order (filter (λ part, part ∉ support) parts).

Definition comma_separated_message (name : string) : string :=
  "Parameter " +:+ name +:+ " must be str or comma-separated list str".

Fixpoint comma_separated_validator (kwargs : list (string * pyval)) : Py pyval :=
  match kwargs with
  | [] => mret PyNone
  | (name, param) :: kwargs =>
      (if negb (is_none param) then
         try_except
           (py_split comma param ;; mret tt)
           (λ e, match e with
                 | AttributeError =>
                     Some (raise (PyYouTubeException INVALID_PARAMS
                                    (comma_separated_message name)))
                 | _ => None
                 end)
       else mret tt) ;;
      comma_separated_validator kwargs
  end.

Definition parts_message (prefix not_support_parts resource : string) : string :=
  prefix +:+ " " +:+ not_support_parts +:+ " for resource " +:+ resource
    +:+ " not support".

Definition parts_validator (resource : string) (parts : pyval) : Py pyval :=
  if negb (is_none parts) then
    support_parts ← resource_parts resource;
    tokens ← py_split comma parts;
    parts ← py_set tokens;
    if negb (set_issuperset support_parts parts) then
      not_support_parts ← py_join "," (set_difference parts support_parts);
      raise (PyYouTubeException INVALID_PARAMS
               (parts_message "Part" not_support_parts resource))
    else mret PyNone
  else mret PyNone.

(** The number of values that are not [None]. *)
Definition count_given (kwargs : list (string * pyval)) : nat :=
  fold_left (λ given '(name, param),
               if negb (is_none param) then given + 1 else given) kwargs 0.

Definition incompatible_validator (kwargs : list (string * pyval)) : Py pyval :=
  let given := count_given kwargs in
  params ← py_join "," (PyStr <$> kwargs.*1);
  if bool_decide (given = 0) then
    raise (PyYouTubeException MISSING_PARAMS
             ("Specify at least one of " +:+ params))
  else if bool_decide (1 < given) then
    raise (PyYouTubeException INVALID_PARAMS
             ("Incompatible parameters specified for " +:+ params))
  else mret PyNone.

Definition enf_message (field : string) : string :=
  "Parameter (" +:+ field
    +:+ ") must be single str,comma-separated str,list,tuple or set".

Definition set_warning : string := "Note: The order of the set is unreliable.".

Definition enf_comma_separated (field : string) (value : pyval) : Py pyval :=
  if is_none value then mret PyNone
  else
    try_except
      (if isinstance_str value then mret value
       else match collection_items value with
            | Some items =>
                (if isinstance_set value then logging_warning set_warning
                 else mret tt) ;;
                joined ← py_join "," items;
                mret (PyStr joined)
            | None =>
                raise (PyYouTubeException INVALID_PARAMS (enf_message field))
            end)
      (λ e, match e with
            | TypeError | ValueError =>
                Some (raise (PyYouTubeException INVALID_PARAMS (enf_message field)))
            | _ => None
            end).

Definition enf_parts (resource : string) (value : pyval) : Py pyval :=
  parts ← (if is_none value then resource_parts resource
           else if isinstance_str value then
             tokens ← py_split comma value;
             py_set tokens
           else match collection_items value with
                | Some items => py_set items
                | None =>
                    raise (PyYouTubeException INVALID_PARAMS (enf_message "parts"))
                end);
  support_parts ← resource_parts resource;
  if negb (set_issuperset support_parts parts) then
    not_support_parts ← py_join "," (set_difference parts support_parts);
    raise (PyYouTubeException INVALID_PARAMS
             (parts_message "Parts" not_support_parts resource))
  else
    joined ← py_join "," parts;
    mret (PyStr joined).

(** Following the specification, the result of validating the requested
    parts against the supported ones: when some requested part is not
    supported, INVALID_PARAMS with the unsupported parts, each once and in
    some order, and the resource; otherwise the requested parts, each once
    and in some order, joined with commas. *)
Definition spec_validated (resource : string) (support requested : list string)
    (result : outcome pyval) : Prop :=
  if decide (requested ⊆ support) then
    ∃ parts, parts ≡ₚ remove_dups requested
             ∧ result = Return (PyStr (str_join "," parts))
  else
    ∃ unsupported,
      unsupported ≡ₚ filter (λ part, part ∉ support) (remove_dups requested)
      ∧ result = Raise (PyYouTubeException INVALID_PARAMS
                          ("Parts " +:+ str_join "," unsupported
                             +:+ " for resource " +:+ resource +:+ " not support")).

(** A computation that leaves the log as it found it, whatever it returns
    or raises. *)
Definition silent {A : Type} (m : Py A) : Prop := ∀ log, (m log).2 = log.

(** ** Strings: splitting and joining *)

Lemma str_split_not_nil sep s : str_split sep s ≠ [].
Proof.
  destruct s as [|c rest]; simpl; [done|].
  case_decide; [done|]. by destruct (str_split sep rest).
Qed.

Lemma str_split_no_sep sep s : occurs sep s = false → str_split sep s = [s].
Proof.
  induction s as [|c rest IH]; simpl; [done|].
  intros [Hc Hrest]%orb_false_elim.
  apply bool_decide_eq_false in Hc.
  rewrite decide_False by done. by rewrite IH.
Qed.

Lemma str_split_app sep item s :
  occurs sep item = false →
  str_split sep (item +:+ String sep s) = item :: str_split sep s.
Proof.
  induction item as [|c rest IH]; simpl.
  - intros _. by rewrite decide_True.
  - intros [Hc Hrest]%orb_false_elim.
    apply bool_decide_eq_false in Hc.
    rewrite decide_False by done. by rewrite IH.
Qed.

(** Splitting undoes joining when there is an item and no item holds the
    separator. *)
Lemma str_split_join sep items :
  items ≠ [] →
  Forall (λ item, occurs sep item = false) items →
  str_split sep (str_join (String sep "") items) = items.
Proof.
  intros Hne Hitems. induction Hitems as [|item rest Hitem Hrest IH]; [done|].
  destruct rest as [|item' rest].
  - simpl. by apply str_split_no_sep.
  - change (str_join (String sep "") (item :: item' :: rest))
      with (item +:+ String sep (str_join (String sep "") (item' :: rest))).
    rewrite str_split_app by done. by rewrite IH.
Qed.

(** Joining undoes splitting. *)
Lemma str_join_split sep s : str_join (String sep "") (str_split sep s) = s.
Proof.
  induction s as [|c rest IH]; simpl; [done|].
  case_decide as Hc.
  - subst c. pose proof (str_split_not_nil sep rest) as Hne.
    destruct (str_split sep rest) as [|tok toks]; [done|].
    by rewrite <- IH.
  - pose proof (str_split_not_nil sep rest) as Hne.
    destruct (str_split sep rest) as [|tok toks]; [done|].
    rewrite <- IH. by destruct toks.
Qed.

Lemma contains_occurs c s : contains (String c "") s → occurs c s = true.
Proof.
  intros (pre & post & ->).
  induction pre as [|c' pre IH]; simpl.
  - by rewrite bool_decide_eq_true_2.
  - rewrite IH. by rewrite orb_true_r.
Qed.

(** ** The monad *)

Lemma bind_Return {A B} (m : Py A) (f : A → Py B) log a log' :
  m log = (Return a, log') → (m ≫= f) log = f a log'.
Proof. unfold mbind, Py_bind. by intros ->. Qed.

Lemma bind_Raise {A B} (m : Py A) (f : A → Py B) log e log' :
  m log = (Raise e, log') → (m ≫= f) log = (Raise e, log').
Proof. unfold mbind, Py_bind. by intros ->. Qed.

Lemma bind_mret {A B} (a : A) (f : A → Py B) log : (mret a ≫= f) log = f a log.
Proof. done. Qed.

(** Runs the first computation of a bind whose outcome [H] gives. *)
Tactic Notation "py_bind" uconstr(H) :=
  first [ rewrite (bind_Return _ _ _ _ _ H) | rewrite (bind_Raise _ _ _ _ _ H) ].

(** ** Collections of strings *)

#[local] Instance PyStr_inj : Inj (=) (=) PyStr.
Proof. by intros s1 s2 [= ->]. Qed.

Lemma forallb_isinstance_str (l : list string) :
  forallb isinstance_str (PyStr <$> l) = true.
Proof. by induction l. Qed.

Lemma forallb_hashable_strs (l : list string) :
  forallb hashable (PyStr <$> l) = true.
Proof. by induction l. Qed.

Lemma strs_of_fmap (l : list string) : strs_of (PyStr <$> l) = l.
Proof. induction l as [|s l IH]; [done|]. cbn. f_equal. exact IH. Qed.

Lemma py_join_strs sep (l : list string) log :
  py_join sep (PyStr <$> l) log = (Return (str_join sep l), log).
Proof. unfold py_join. by rewrite forallb_isinstance_str, strs_of_fmap. Qed.

Lemma remove_dups_strs (l : list string) :
  remove_dups (PyStr <$> l) = PyStr <$> remove_dups l.
Proof.
  induction l as [|s l IH]; [done|]. csimpl.
  destruct (decide_rel elem_of s l) as [Hin|Hin],
           (decide_rel elem_of (PyStr s) (PyStr <$> l)) as [Hin'|Hin'];
    rewrite ?(list_elem_of_fmap_inj PyStr) in Hin'; try done.
  by rewrite IH.
Qed.

Lemma filter_unsupported_strs (parts support : list string) :
  filter (λ part, part ∉ PyStr <$> support) (PyStr <$> parts)
  = PyStr <$> filter (λ part, part ∉ support) parts.
Proof.
  induction parts as [|s parts IH]; [done|].
  rewrite fmap_cons, !filter_cons, IH.
  destruct (decide (s ∉ support)) as [Hin|Hin].
  - rewrite decide_True by (by rewrite (list_elem_of_fmap_inj PyStr)). done.
  - rewrite decide_False by (by rewrite (list_elem_of_fmap_inj PyStr)). done.
Qed.

Lemma Permutation_strs items (l : list string) :
  items ≡ₚ PyStr <$> l → ∃ l', items = PyStr <$> l' ∧ l' ≡ₚ l.
Proof.
  intros Hperm.
  apply (Permutation_map_inv PyStr) in Hperm as (l' & -> & Hl').
  exists l'. split; [done|]. by symmetry.
Qed.

Lemma set_issuperset_strs (support parts : list string) :
  set_issuperset (PyStr <$> support) (PyStr <$> parts) = true ↔ parts ⊆ support.
Proof.
  unfold set_issuperset. rewrite forallb_forall. split.
  - intros Hall part Hpart.
    specialize (Hall (PyStr part)).
    rewrite bool_decide_eq_true, (list_elem_of_fmap_inj PyStr) in Hall.
    apply Hall, list_elem_of_In. by apply list_elem_of_fmap_2.
  - intros Hsub item [part [-> Hpart]]%list_elem_of_In%list_elem_of_fmap.
    rewrite bool_decide_eq_true, (list_elem_of_fmap_inj PyStr). by apply Hsub.
Qed.

Lemma py_set_strs (l : list string) log :
  ∃ parts, parts ≡ₚ remove_dups l
           ∧ py_set (PyStr <$> l) log = (Return (PyStr <$> parts), log).
Proof.
  unfold py_set. rewrite forallb_hashable_strs, remove_dups_strs.
  destruct (Permutation_strs (set_order (PyStr <$> remove_dups l)) (remove_dups l))
    as (parts & Heq & Hperm); [apply set_order_perm|].
  exists parts. by rewrite Heq.
Qed.

Lemma set_difference_strs (parts support : list string) :
  ∃ unsupported,
    unsupported ≡ₚ filter (λ part, part ∉ support) parts
    ∧ set_difference (PyStr <$> parts) (PyStr <$> support) = PyStr <$> unsupported.
Proof.
  unfold set_difference. rewrite filter_unsupported_strs.
  destruct (Permutation_strs
              (difference_order (PyStr <$> filter (λ part, part ∉ support) parts))
              (filter (λ part, part ∉ support) parts))
    as (unsupported & Heq & Hperm); [apply difference_order_perm|].
  by exists unsupported.
Qed.

Lemma resource_parts_key resource support log :
  RESOURCE_PARTS_MAPPING !! resource = Some support →
  resource_parts resource log = (Return (PyStr <$> support), log).
Proof. unfold resource_parts, dict_getitem. by intros ->. Qed.


(** ** comma_separated_validator *)

Lemma comma_separated_validator_skip name param kwargs log :
  param = PyNone ∨ (∃ s, param = PyStr s) →
  comma_separated_validator ((name, param) :: kwargs) log
  = comma_separated_validator kwargs log.
Proof. by intros [->|[s ->]]. Qed.

(** C6: when every value that is present is a string, the validator raises
    nothing, returns [None] and leaves the log as it was. *)
Theorem comma_separated_validator_strings kwargs log :
  Forall (λ kv, kv.2 = PyNone ∨ ∃ s, kv.2 = PyStr s) kwargs →
  comma_separated_validator kwargs log = (Return PyNone, log).
Proof.
  induction 1 as [|[name param] kwargs Hparam _ IH]; [done|].
  by rewrite comma_separated_validator_skip.
Qed.

(** C5, amended: the first value that is present and not a string decides.
    When its type has no [split] method the validator raises
    INVALID_PARAMS, and the message holds the name of that parameter and
    says that it must be a string or a comma-separated list string. *)
Theorem comma_separated_validator_first_invalid before name param after log :
  Forall (λ kv, kv.2 = PyNone ∨ ∃ s, kv.2 = PyStr s) before →
  param ≠ PyNone →
  has_split param = false →
  comma_separated_validator (before ++ (name, param) :: after) log
  = (Raise (PyYouTubeException INVALID_PARAMS
              ("Parameter " +:+ name +:+ " must be str or comma-separated list str")),
     log)
  ∧ contains name
      ("Parameter " +:+ name +:+ " must be str or comma-separated list str").
Proof.
  intros Hbefore Hpresent Hsplit. split.
  - induction Hbefore as [|[name' param'] before Hparam' _ IH].
    + by destruct param.
    + rewrite <- app_comm_cons. by rewrite comma_separated_validator_skip.
  - by exists "Parameter ", " must be str or comma-separated list str".
Qed.

(** ** incompatible_validator *)

Lemma count_given_present kwargs :
  count_given kwargs = length (filter (λ kv, kv.2 ≠ PyNone) kwargs).
Proof.
  unfold count_given.
  cut (∀ given,
         fold_left (λ given '(name, param),
                      if negb (is_none param) then given + 1 else given) kwargs given
         = given + length (filter (λ kv : string * pyval, kv.2 ≠ PyNone) kwargs)).
  { intros Hcut. by rewrite Hcut. }
  induction kwargs as [|[name param] kwargs IH]; intros given; simpl.
  - lia.
  - rewrite IH, filter_cons. destruct param; simpl; lia.
Qed.

(** C3: the outcome depends on the number of values that are present: none
    raises MISSING_PARAMS and more than one raises INVALID_PARAMS, both
    with the names of all the parameters joined by commas in the order
    they were given; exactly one returns [None]. *)
Theorem incompatible_validator_cardinality kwargs log :
  incompatible_validator kwargs log
  = (match length (filter (λ kv, kv.2 ≠ PyNone) kwargs) with
     | 0 => Raise (PyYouTubeException MISSING_PARAMS
                     ("Specify at least one of " +:+ str_join "," kwargs.*1))
     | 1 => Return PyNone
     | _ => Raise (PyYouTubeException INVALID_PARAMS
                     ("Incompatible parameters specified for "
                        +:+ str_join "," kwargs.*1))
     end, log).
Proof.
  unfold incompatible_validator.
  py_bind (py_join_strs "," kwargs.*1 log).
  rewrite count_given_present.
  destruct (length (filter (λ kv : string * pyval, kv.2 ≠ PyNone) kwargs))
    as [|[|n]]; [done|done|].
  rewrite bool_decide_eq_false_2 by lia. by rewrite bool_decide_eq_true_2 by lia.
Qed.


(** ** enf_comma_separated *)

Lemma enf_comma_separated_str field s log :
  enf_comma_separated field (PyStr s) log = (Return (PyStr s), log).
Proof. done. Qed.

(** What a successful call returns is a string or [None], and it is the
    value itself or the join of its items. *)
Lemma enf_comma_separated_Return field value log result log' :
  enf_comma_separated field value log = (Return result, log') →
  result = value
  ∨ ∃ items, collection_items value = Some items
             ∧ result = PyStr (str_join "," (strs_of items)).
Proof.
  unfold enf_comma_separated, try_except, py_join.
  destruct value as [|s|b|z|items|items|items]; simpl;
    try (intros [= <- <-]; by left); try done;
    unfold mbind, Py_bind, py_join; simpl;
    destruct (forallb isinstance_str items); simpl; try done;
    intros [= <- <-]; right; by exists items.
Qed.

(** C1: [None] gives [None], a string is returned as it is, a list or a
    tuple of strings is joined with commas in the order of its items (and so
    is a set, in the order it iterates, after a warning), and a value of
    another type, or a collection with an item that is not a string, raises
    INVALID_PARAMS with a message that holds the field and the accepted
    types. *)
Theorem enf_comma_separated_cases field log :
  enf_comma_separated field PyNone log = (Return PyNone, log)
  ∧ (∀ s, enf_comma_separated field (PyStr s) log = (Return (PyStr s), log))
  ∧ (∀ items : list string,
       enf_comma_separated field (PyList (PyStr <$> items)) log
       = (Return (PyStr (str_join "," items)), log)
       ∧ enf_comma_separated field (PyTuple (PyStr <$> items)) log
         = (Return (PyStr (str_join "," items)), log)
       ∧ enf_comma_separated field (PySet (PyStr <$> items)) log
         = (Return (PyStr (str_join "," items)),
            log ++ [mkLogRecord WARNING set_warning]))
  ∧ (∀ value,
       value ≠ PyNone → isinstance_str value = false →
       collection_items value = None →
       enf_comma_separated field value log
       = (Raise (PyYouTubeException INVALID_PARAMS (enf_message field)), log))
  ∧ (∀ value items,
       collection_items value = Some items →
       forallb isinstance_str items = false →
       (enf_comma_separated field value log).1
       = Raise (PyYouTubeException INVALID_PARAMS (enf_message field)))
  ∧ enf_message field
    = "Parameter (" +:+ field
        +:+ ") must be single str,comma-separated str,list,tuple or set".
Proof.
  split_and!; try done.
  - intros items. unfold enf_comma_separated, try_except. csimpl.
    rewrite bind_mret. repeat py_bind (py_join_strs "," items log).
    split_and!; [done|done|].
    unfold mbind at 1, Py_bind, logging_warning.
    by py_bind (py_join_strs "," items _).
  - intros value Hnone Hstr Hitems. by destruct value.
  - intros value items Hitems Hstrs.
    unfold enf_comma_separated, try_except.
    destruct value; simplify_eq/=;
      unfold mbind, Py_bind, py_join; simpl; by rewrite Hstrs.
Qed.

(** C8: a string that [enf_comma_separated] returned is returned as it is
    when it is passed through [enf_comma_separated] again. *)
Theorem enf_comma_separated_idempotent field value s log log' :
  enf_comma_separated field value log = (Return (PyStr s), log') →
  ∀ log'', enf_comma_separated field (PyStr s) log'' = (Return (PyStr s), log'').
Proof. intros _ log''. apply enf_comma_separated_str. Qed.

(** C9: for a set of strings, whatever the order [members] in which the
    set object iterates over them, the call returns the members joined
    with commas in that order and adds one record of level WARNING to the
    log; it does not raise. *)
Theorem enf_comma_separated_set field (X : gset string) members log :
  members ≡ₚ elements X →
  enf_comma_separated field (PySet (PyStr <$> members)) log
  = (Return (PyStr (str_join "," members)),
     log ++ [mkLogRecord WARNING "Note: The order of the set is unreliable."])
  ∧ (∀ s, s ∈ members ↔ s ∈ X)
  ∧ NoDup members.
Proof.
  intros Hperm. split_and!.
  - unfold enf_comma_separated, try_except. simpl.
    unfold mbind at 1, Py_bind, logging_warning.
    by py_bind (py_join_strs "," members _).
  - intros s. by rewrite Hperm, elem_of_elements.
  - rewrite Hperm. apply NoDup_elements.
Qed.


(** ** parts_validator *)

Lemma subseteq_remove_dups (parts requested support : list string) :
  parts ≡ₚ remove_dups requested → parts ⊆ support ↔ requested ⊆ support.
Proof.
  intros Hperm. split; intros Hsub part Hpart; apply Hsub.
  - by rewrite Hperm, elem_of_remove_dups.
  - by rewrite Hperm, elem_of_remove_dups in Hpart.
Qed.

Lemma set_issuperset_inv (support : list string) items :
  set_issuperset (PyStr <$> support) items = true →
  ∃ parts, items = PyStr <$> parts ∧ parts ⊆ support.
Proof.
  unfold set_issuperset. induction items as [|item items IH]; simpl.
  - intros _. exists []. split; [done|]. by intros part ?%elem_of_nil.
  - intros [Hitem Hitems]%andb_true_iff.
    destruct (IH Hitems) as (parts & -> & Hparts).
    apply bool_decide_eq_true, list_elem_of_fmap in Hitem as (part & -> & Hpart).
    exists (part :: parts). split; [done|].
    intros part' [->|Hin]%elem_of_cons; [done|by apply Hparts].
Qed.

(** C4: with a resource of the table, [None] passes; a string is split on
    commas, and it passes when every token is a supported part, and
    otherwise raises INVALID_PARAMS with the unsupported tokens, each once
    and in the order of the difference set, joined with commas, and the
    resource.  The validator returns [None] and logs nothing. *)
Theorem parts_validator_cases resource support log :
  RESOURCE_PARTS_MAPPING !! resource = Some support →
  parts_validator resource PyNone log = (Return PyNone, log)
  ∧ ∀ parts : string,
      if decide (str_split comma parts ⊆ support) then
        parts_validator resource (PyStr parts) log = (Return PyNone, log)
      else
        ∃ unsupported,
          unsupported ≡ₚ filter (λ part, part ∉ support)
                           (remove_dups (str_split comma parts))
          ∧ parts_validator resource (PyStr parts) log
            = (Raise (PyYouTubeException INVALID_PARAMS
                        ("Part " +:+ str_join "," unsupported
                           +:+ " for resource " +:+ resource +:+ " not support")),
               log).
Proof.
  intros Hkey. split; [done|]. intros s.
  unfold parts_validator. csimpl.
  py_bind (resource_parts_key _ _ log Hkey). rewrite bind_mret.
  destruct (py_set_strs (str_split comma s) log) as (parts & Hperm & Hset).
  py_bind Hset.
  pose proof (set_issuperset_strs support parts) as Hsuper.
  rewrite (subseteq_remove_dups _ _ _ Hperm) in Hsuper.
  case_decide as Hsub.
  - apply Hsuper in Hsub. by rewrite Hsub.
  - destruct (set_issuperset (PyStr <$> support) (PyStr <$> parts));
      [by destruct Hsub; apply Hsuper|]. csimpl.
    destruct (set_difference_strs parts support) as (unsupported & Hdiff & ->).
    py_bind (py_join_strs _ _ _).
    exists unsupported. split; [by rewrite Hdiff, Hperm|done].
Qed.


(** ** enf_parts *)

(** The second half of [enf_parts] on a requested set of strings. *)
Lemma enf_parts_validate resource support (requested parts : list string) log :
  RESOURCE_PARTS_MAPPING !! resource = Some support →
  parts ≡ₚ remove_dups requested →
  ∃ result,
    (support_parts ← resource_parts resource;
     if negb (set_issuperset support_parts (PyStr <$> parts)) then
       not_support_parts ← py_join "," (set_difference (PyStr <$> parts) support_parts);
       raise (PyYouTubeException INVALID_PARAMS
                (parts_message "Parts" not_support_parts resource))
     else
       joined ← py_join "," (PyStr <$> parts);
       mret (PyStr joined)) log = (result, log)
    ∧ spec_validated resource support requested result.
Proof.
  intros Hkey Hperm. unfold spec_validated.
  py_bind (resource_parts_key _ _ log Hkey).
  pose proof (set_issuperset_strs support parts) as Hsuper.
  rewrite (subseteq_remove_dups _ _ _ Hperm) in Hsuper.
  case_decide as Hsub.
  - apply Hsuper in Hsub. rewrite Hsub. csimpl.
    py_bind (py_join_strs _ _ _).
    eexists. split; [done|]. by exists parts.
  - destruct (set_issuperset (PyStr <$> support) (PyStr <$> parts));
      [by destruct Hsub; apply Hsuper|]. csimpl.
    destruct (set_difference_strs parts support) as (unsupported & Hdiff & ->).
    py_bind (py_join_strs _ _ _).
    eexists. split; [done|]. exists unsupported.
    split; [by rewrite Hdiff, Hperm|done].
Qed.

Lemma enf_parts_None resource support log :
  RESOURCE_PARTS_MAPPING !! resource = Some support →
  enf_parts resource PyNone log = (Return (PyStr (str_join "," support)), log).
Proof.
  intros Hkey. unfold enf_parts. csimpl.
  do 2 py_bind (resource_parts_key _ _ log Hkey).
  rewrite (proj2 (set_issuperset_strs support support)) by done. csimpl.
  by py_bind (py_join_strs _ _ _).
Qed.

(** X18: with a resource of the table, [None] gives all the supported parts
    joined with commas; a string is split on commas and a list, tuple or
    set whose items are all strings is taken as it is, and the requested
    parts are validated as the specification says; a value of another type
    raises INVALID_PARAMS. *)
Theorem enf_parts_cases resource support log :
  RESOURCE_PARTS_MAPPING !! resource = Some support →
  enf_parts resource PyNone log = (Return (PyStr (str_join "," support)), log)
  ∧ (∀ s, ∃ result,
       enf_parts resource (PyStr s) log = (result, log)
       ∧ spec_validated resource support (str_split comma s) result)
  ∧ (∀ (items : list string) value,
       value ∈ [PyList (PyStr <$> items); PyTuple (PyStr <$> items);
                PySet (PyStr <$> items)] →
       ∃ result,
         enf_parts resource value log = (result, log)
         ∧ spec_validated resource support items result)
  ∧ (∀ value,
       value ≠ PyNone → isinstance_str value = false →
       collection_items value = None →
       enf_parts resource value log
       = (Raise (PyYouTubeException INVALID_PARAMS
                   "Parameter (parts) must be single str,comma-separated str,list,tuple or set"),
          log)).
Proof.
  intros Hkey. split_and!.
  - by apply enf_parts_None.
  - intros s. unfold enf_parts. csimpl.
    destruct (py_set_strs (str_split comma s) log) as (parts & Hperm & Hset).
    rewrite <- (bind_mret (PyStr <$> str_split comma s) py_set) in Hset.
    py_bind Hset.
    by apply enf_parts_validate.
  - intros items value Hvalue.
    destruct (py_set_strs items log) as (parts & Hperm & Hset).
    assert (enf_parts resource value log
            = enf_parts resource (PyList (PyStr <$> items)) log) as ->.
    { set_unfold. by destruct Hvalue as [->|[->|[->|[]]]]. }
    unfold enf_parts. csimpl.
    py_bind Hset.
    by apply enf_parts_validate.
  - intros value Hnone Hstr Hitems. by destruct value.
Qed.

(** What [enf_parts] returns is the join of supported parts. *)
Lemma enf_parts_Return resource support value result log log' :
  RESOURCE_PARTS_MAPPING !! resource = Some support →
  enf_parts resource value log = (Return result, log') →
  ∃ parts, parts ⊆ support ∧ result = PyStr (str_join "," parts).
Proof.
  intros Hkey. unfold enf_parts.
  match goal with |- (?first ≫= _) log = _ → _ => set (requested := first) end.
  destruct (requested log) as [[items|e] log1] eqn:Hrequested.
  - py_bind Hrequested.
    py_bind (resource_parts_key _ _ log1 Hkey).
    destruct (set_issuperset (PyStr <$> support) items) eqn:Hsuper; csimpl.
    + apply set_issuperset_inv in Hsuper as (parts & -> & Hparts).
      py_bind (py_join_strs _ _ _).
      intros [= <- <-]. by exists parts.
    + destruct (py_join "," (set_difference items (PyStr <$> support)) log1)
        as [[joined|e] log2] eqn:Hjoin.
      * by py_bind Hjoin.
      * by py_bind Hjoin.
  - by py_bind Hrequested.
Qed.

(** C7, amended: with a table whose parts hold no comma, a string that
    [enf_parts] returns and that is not empty splits on commas into
    supported parts only. *)
Theorem enf_parts_tokens_supported resource support value s log log' :
  RESOURCE_PARTS_MAPPING !! resource = Some support →
  Forall (λ part, occurs comma part = false) support →
  enf_parts resource value log = (Return (PyStr s), log') →
  s ≠ "" →
  str_split comma s ⊆ support.
Proof.
  intros Hkey Hcommas Hreturn Hne.
  destruct (enf_parts_Return _ _ _ _ _ _ Hkey Hreturn) as (parts & Hparts & [= ->]).
  change "," with (String comma "").
  rewrite str_split_join; [done|by intros ->|].
  rewrite Forall_forall in Hcommas |- *. intros part Hpart. by apply Hcommas, Hparts.
Qed.

(** C10: with a resource of the table, an empty list, tuple or set gives
    the empty string; only [None] stands for all the supported parts. *)
Theorem enf_parts_empty_collection resource support log :
  RESOURCE_PARTS_MAPPING !! resource = Some support →
  enf_parts resource (PyList []) log = (Return (PyStr ""), log)
  ∧ enf_parts resource (PyTuple []) log = (Return (PyStr ""), log)
  ∧ enf_parts resource (PySet []) log = (Return (PyStr ""), log)
  ∧ enf_parts resource PyNone log = (Return (PyStr (str_join "," support)), log).
Proof.
  intros Hkey.
  assert (set_order [] = []) as Hempty.
  { apply Permutation_nil_r, set_order_perm. }
  split_and!; [| | |by apply enf_parts_None];
    unfold enf_parts, py_set; csimpl; rewrite bind_mret, Hempty;
    by py_bind (resource_parts_key _ _ log Hkey).
Qed.

(** ** Further properties of the validators *)

(** *** Computations that do not log *)

Lemma silent_mret {A} (a : A) : silent (mret a : Py A).
Proof. done. Qed.

Lemma silent_raise {A} e : silent (raise e : Py A).
Proof. done. Qed.

Lemma silent_bind {A B} (m : Py A) (f : A → Py B) :
  silent m → (∀ a, silent (f a)) → silent (m ≫= f).
Proof.
  intros Hm Hf log. specialize (Hm log). unfold mbind, Py_bind.
  destruct (m log) as [[a|e] log1]; simpl in Hm; subst log1; [apply Hf|done].
Qed.

Lemma silent_try_except {A} (body : Py A) handler :
  silent body → (∀ e h, handler e = Some h → silent h) → silent (try_except body handler).
Proof.
  intros Hbody Hhandler log. specialize (Hbody log). unfold try_except.
  destruct (body log) as [[a|e] log1]; simpl in Hbody; subst log1; [done|].
  destruct (handler e) as [h|] eqn:He; [by apply (Hhandler e)|done].
Qed.

Lemma silent_py_split sep param : silent (py_split sep param).
Proof. by destruct param. Qed.

Lemma silent_py_join sep items : silent (py_join sep items).
Proof. unfold py_join. by destruct (forallb isinstance_str items). Qed.

Lemma silent_py_set items : silent (py_set items).
Proof. unfold py_set. by destruct (forallb hashable items). Qed.

Lemma silent_resource_parts resource : silent (resource_parts resource).
Proof.
  unfold resource_parts, dict_getitem.
  by destruct (RESOURCE_PARTS_MAPPING !! resource).
Qed.

Lemma silent_comma_separated_validator kwargs : silent (comma_separated_validator kwargs).
Proof.
  induction kwargs as [|[name param] kwargs IH]; [done|]. simpl.
  apply silent_bind; [|done].
  destruct (is_none param); simpl; [done|].
  apply silent_try_except.
  - apply silent_bind; [apply silent_py_split|done].
  - intros [] h [= <-]. apply silent_raise.
Qed.

Lemma silent_parts_validator resource parts : silent (parts_validator resource parts).
Proof.
  unfold parts_validator. destruct (is_none parts); simpl; [done|].
  apply silent_bind; [apply silent_resource_parts|intros support_parts].
  apply silent_bind; [apply silent_py_split|intros tokens].
  apply silent_bind; [apply silent_py_set|intros requested].
  destruct (set_issuperset support_parts requested); simpl; [done|].
  apply silent_bind; [apply silent_py_join|done].
Qed.

Lemma silent_incompatible_validator kwargs : silent (incompatible_validator kwargs).
Proof.
  unfold incompatible_validator.
  apply silent_bind; [apply silent_py_join|intros params].
  by repeat case_bool_decide.
Qed.

Lemma silent_enf_parts resource value : silent (enf_parts resource value).
Proof.
  unfold enf_parts. apply silent_bind.
  - destruct value; simpl;
      first [ apply silent_resource_parts | apply silent_py_set | apply silent_raise
            | apply silent_bind; [apply silent_py_split|apply silent_py_set] ].
  - intros requested.
    apply silent_bind; [apply silent_resource_parts|intros support_parts].
    destruct (set_issuperset support_parts requested); simpl.
    + apply silent_bind; [apply silent_py_join|done].
    + apply silent_bind; [apply silent_py_join|done].
Qed.

(** X1: four of the five validators never write to the log, whatever they
    are given and whether they return or raise. *)
Theorem validators_do_not_log kwargs resource value log :
  (comma_separated_validator kwargs log).2 = log
  ∧ (parts_validator resource value log).2 = log
  ∧ (incompatible_validator kwargs log).2 = log
  ∧ (enf_parts resource value log).2 = log.
Proof.
  split_and!.
  - apply silent_comma_separated_validator.
  - apply silent_parts_validator.
  - apply silent_incompatible_validator.
  - apply silent_enf_parts.
Qed.

(** X2: [enf_comma_separated] logs the warning exactly when the value is a
    set, also when the join then fails, and logs nothing else. *)
Theorem enf_comma_separated_log field value log :
  (enf_comma_separated field value log).2
  = if isinstance_set value then log ++ [mkLogRecord WARNING set_warning] else log.
Proof.
  unfold enf_comma_separated, try_except.
  destruct value as [|s|b|z|items|items|items]; simpl; try done;
    unfold mbind, Py_bind, py_join; simpl;
    by destruct (forallb isinstance_str items).
Qed.

(** X3: whatever the value and its items, [enf_comma_separated] returns
    [None] or a string, or raises INVALID_PARAMS with its one message; no
    other exception leaves it. *)
Theorem enf_comma_separated_outcomes field value log :
  (enf_comma_separated field value log).1 = Return PyNone
  ∨ (∃ s, (enf_comma_separated field value log).1 = Return (PyStr s))
  ∨ (enf_comma_separated field value log).1
    = Raise (PyYouTubeException INVALID_PARAMS (enf_message field)).
Proof.
  unfold enf_comma_separated, try_except.
  destruct value as [|s|b|z|items|items|items]; simpl; eauto;
    unfold mbind, Py_bind, py_join; simpl;
    destruct (forallb isinstance_str items); simpl; eauto.
Qed.

(** *** Round trips between a string and its tokens *)

(** X4: the tokens of any string, passed as a list or as a tuple, give the
    string back. *)
Theorem enf_comma_separated_of_split field s log :
  enf_comma_separated field (PyList (PyStr <$> str_split comma s)) log
  = (Return (PyStr s), log)
  ∧ enf_comma_separated field (PyTuple (PyStr <$> str_split comma s)) log
    = (Return (PyStr s), log).
Proof.
  unfold enf_comma_separated, try_except. csimpl.
  rewrite bind_mret. repeat py_bind (py_join_strs "," (str_split comma s) log).
  change "," with (String comma ""). by rewrite str_join_split.
Qed.

(** X5: for a list with at least one item and no comma in any item, the
    string returned splits on commas into the items again. *)
Theorem enf_comma_separated_split items field log :
  items ≠ [] →
  Forall (λ item, occurs comma item = false) items →
  ∃ s,
    enf_comma_separated field (PyList (PyStr <$> items)) log = (Return (PyStr s), log)
    ∧ str_split comma s = items.
Proof.
  intros Hne Hitems. exists (str_join "," items). split.
  - unfold enf_comma_separated, try_except. csimpl.
    rewrite bind_mret. by py_bind (py_join_strs "," items log).
  - change "," with (String comma ""). by apply str_split_join.
Qed.

(** *** comma_separated_validator *)

Lemma comma_separated_validator_head_raises name param kwargs log :
  param ≠ PyNone → isinstance_str param = false →
  comma_separated_validator ((name, param) :: kwargs) log
  = (Raise (if has_split param then TypeError
            else PyYouTubeException INVALID_PARAMS (comma_separated_message name)),
     log).
Proof. intros Hnone Hstr. by destruct param. Qed.

(** X6: only [AttributeError] is handled.  When the first value that is
    present and not a string is a [bytes] value, the [TypeError] of its
    [split] leaves the validator as it is. *)
Theorem comma_separated_validator_bytes_TypeError before name b after log :
  Forall (λ kv, kv.2 = PyNone ∨ ∃ s, kv.2 = PyStr s) before →
  comma_separated_validator (before ++ (name, PyBytes b) :: after) log
  = (Raise TypeError, log).
Proof.
  induction 1 as [|[name' param'] before Hparam' _ IH]; [done|].
  rewrite <- app_comm_cons. by rewrite comma_separated_validator_skip.
Qed.

(** X7: the validator returns only when the type of every value that is
    present has a [split] method, and what it returns then is [None]. *)
Theorem comma_separated_validator_Return kwargs result log log' :
  comma_separated_validator kwargs log = (Return result, log') →
  Forall (λ kv, kv.2 = PyNone ∨ has_split kv.2 = true) kwargs ∧ result = PyNone.
Proof.
  induction kwargs as [|[name param] kwargs IH].
  - intros [= <- <-]. by split.
  - destruct (decide (param = PyNone)) as [->|Hnone].
    { rewrite comma_separated_validator_skip by by left.
      intros [Hall ->]%IH. split; [|done]. constructor; [by left|done]. }
    destruct (isinstance_str param) eqn:Hstr.
    + destruct param; try done.
      rewrite comma_separated_validator_skip by (right; by eexists).
      intros [Hall ->]%IH. split; [|done]. constructor; [by right|done].
    + by rewrite comma_separated_validator_head_raises.
Qed.

(** *** incompatible_validator *)

Lemma incompatible_validator_Return kwargs log :
  incompatible_validator kwargs log = (Return PyNone, log)
  ↔ length (filter (λ kv, kv.2 ≠ PyNone) kwargs) = 1.
Proof.
  unfold incompatible_validator.
  py_bind (py_join_strs "," kwargs.*1 log).
  rewrite count_given_present.
  destruct (length (filter (λ kv : string * pyval, kv.2 ≠ PyNone) kwargs))
    as [|[|n]]; [done|done|].
  rewrite bool_decide_eq_false_2 by lia. by rewrite bool_decide_eq_true_2 by lia.
Qed.

(** X8: whether the validator passes does not depend on the order in which
    the parameters are given. *)
Theorem incompatible_validator_Permutation kwargs kwargs' log :
  kwargs ≡ₚ kwargs' →
  incompatible_validator kwargs log = (Return PyNone, log)
  ↔ incompatible_validator kwargs' log = (Return PyNone, log).
Proof.
  intros Hperm. rewrite !incompatible_validator_Return. by rewrite Hperm.
Qed.

(** *** parts_validator and enf_parts *)

Lemma parts_validator_str resource support s log :
  RESOURCE_PARTS_MAPPING !! resource = Some support →
  parts_validator resource (PyStr s) log = (Return PyNone, log)
  ↔ str_split comma s ⊆ support.
Proof.
  intros Hkey. unfold parts_validator. csimpl.
  py_bind (resource_parts_key _ _ log Hkey). rewrite bind_mret.
  destruct (py_set_strs (str_split comma s) log) as (parts & Hperm & Hset).
  py_bind Hset.
  rewrite <- (subseteq_remove_dups _ _ _ Hperm), <- set_issuperset_strs.
  destruct (set_issuperset (PyStr <$> support) (PyStr <$> parts)); csimpl; [done|].
  destruct (set_difference_strs parts support) as (unsupported & _ & ->).
  by py_bind (py_join_strs _ _ _).
Qed.

Lemma enf_parts_str resource support s log :
  RESOURCE_PARTS_MAPPING !! resource = Some support →
  ∃ result, enf_parts resource (PyStr s) log = (result, log)
            ∧ spec_validated resource support (str_split comma s) result.
Proof.
  intros Hkey. unfold enf_parts. csimpl.
  destruct (py_set_strs (str_split comma s) log) as (parts & Hperm & Hset).
  rewrite <- (bind_mret (PyStr <$> str_split comma s) py_set) in Hset.
  py_bind Hset. by apply enf_parts_validate.
Qed.

Lemma enf_parts_collection resource value items log :
  collection_items value = Some items →
  enf_parts resource value log = enf_parts resource (PyList items) log.
Proof. intros Hitems. by destruct value; simplify_eq/=. Qed.

Lemma forallb_isinstance_str_elem item items :
  item ∈ items → isinstance_str item = false → forallb isinstance_str items = false.
Proof.
  intros Hin Hitem. apply not_true_iff_false. intros Hall.
  rewrite forallb_forall in Hall. specialize (Hall item).
  rewrite Hitem in Hall. discriminate Hall. by apply list_elem_of_In.
Qed.

Lemma forallb_isinstance_str_false items :
  forallb isinstance_str items = false →
  ∃ item, item ∈ items ∧ isinstance_str item = false.
Proof.
  induction items as [|item items IH]; simpl; [done|].
  destruct (isinstance_str item) eqn:Hitem; simpl.
  - intros (item' & Hin & Hitem')%IH. exists item'. split; [by right|done].
  - intros _. exists item. split; [by left|done].
Qed.

(** X9: on a string [enf_parts] and [parts_validator] pass together: the
    first returns exactly when the second does. *)
Theorem enf_parts_parts_validator resource support s log :
  RESOURCE_PARTS_MAPPING !! resource = Some support →
  (∃ result, enf_parts resource (PyStr s) log = (Return result, log))
  ↔ parts_validator resource (PyStr s) log = (Return PyNone, log).
Proof.
  intros Hkey. rewrite (parts_validator_str _ _ _ _ Hkey).
  destruct (enf_parts_str resource support s log Hkey) as (result & -> & Hresult).
  unfold spec_validated in Hresult. case_decide as Hsub.
  - destruct Hresult as (parts & _ & ->). split; [done|]. by eexists.
  - destruct Hresult as (unsupported & _ & ->). split; [by intros [? [=]]|done].
Qed.

(** X10: with a table whose parts hold no comma, a string that [enf_parts]
    returned and that is not empty passes [parts_validator]. *)
Theorem parts_validator_of_enf_parts resource support value s log log' log'' :
  RESOURCE_PARTS_MAPPING !! resource = Some support →
  Forall (λ part, occurs comma part = false) support →
  enf_parts resource value log = (Return (PyStr s), log') →
  s ≠ "" →
  parts_validator resource (PyStr s) log'' = (Return PyNone, log'').
Proof.
  intros Hkey Hcommas Hreturn Hne.
  destruct (enf_parts_Return _ _ _ _ _ _ Hkey Hreturn) as (parts & Hparts & [= ->]).
  apply (parts_validator_str _ _ _ _ Hkey).
  change "," with (String comma "").
  rewrite str_split_join; [done|by intros ->|].
  rewrite Forall_forall in Hcommas |- *. intros part Hpart. by apply Hcommas, Hparts.
Qed.

(** X11: with a table whose parts hold no comma, [enf_parts] accepts a
    string that it returned and that is not empty, and returns the same
    parts again, each once, in an order of its own. *)
Theorem enf_parts_of_enf_parts resource support value s log log' log'' :
  RESOURCE_PARTS_MAPPING !! resource = Some support →
  Forall (λ part, occurs comma part = false) support →
  enf_parts resource value log = (Return (PyStr s), log') →
  s ≠ "" →
  ∃ s', enf_parts resource (PyStr s) log'' = (Return (PyStr s'), log'')
        ∧ str_split comma s' ≡ₚ remove_dups (str_split comma s).
Proof.
  intros Hkey Hcommas Hreturn Hne.
  destruct (enf_parts_Return _ _ _ _ _ _ Hkey Hreturn) as (parts & Hparts & [= ->]).
  assert (Forall (λ part, occurs comma part = false) parts) as Hparts_commas.
  { rewrite Forall_forall in Hcommas |- *. intros part Hpart. by apply Hcommas, Hparts. }
  assert (str_split comma (str_join "," parts) = parts) as Hsplit.
  { change "," with (String comma ""). apply str_split_join; [by intros ->|done]. }
  destruct (enf_parts_str resource support (str_join "," parts) log'' Hkey)
    as (result & -> & Hresult).
  unfold spec_validated in Hresult. rewrite Hsplit in Hresult |- *.
  rewrite decide_True in Hresult by done.
  destruct Hresult as (parts' & Hperm & ->).
  exists (str_join "," parts'). split; [done|].
  change "," with (String comma ""). rewrite str_split_join; [done| |].
  - intros ->. apply Permutation_nil_l in Hperm.
    destruct parts as [|part parts]; [done|].
    assert (part ∈ remove_dups (part :: parts)) as Hin
      by (apply elem_of_remove_dups; by left).
    rewrite <- Hperm in Hin. by apply elem_of_nil in Hin.
  - rewrite Forall_forall in Hparts_commas |- *. intros part Hpart.
    apply Hparts_commas. by rewrite Hperm, elem_of_remove_dups in Hpart.
Qed.

Lemma py_set_NoDup items requested log log1 :
  py_set items log = (Return requested, log1) → NoDup requested.
Proof.
  unfold py_set. destruct (forallb hashable items); [|done].
  intros [= <- <-]. rewrite set_order_perm. apply NoDup_remove_dups.
Qed.

Lemma enf_parts_list_NoDup resource support items result log log' :
  RESOURCE_PARTS_MAPPING !! resource = Some support →
  enf_parts resource (PyList items) log = (Return result, log') →
  ∃ parts, NoDup parts ∧ parts ⊆ support ∧ result = PyStr (str_join "," parts).
Proof.
  intros Hkey. unfold enf_parts. csimpl.
  destruct (py_set items log) as [[requested|e] log1] eqn:Hset.
  - py_bind Hset. apply py_set_NoDup in Hset.
    py_bind (resource_parts_key _ _ log1 Hkey).
    destruct (set_issuperset (PyStr <$> support) requested) eqn:Hsuper; csimpl.
    + apply set_issuperset_inv in Hsuper as (parts & -> & Hparts).
      py_bind (py_join_strs _ _ _).
      intros [= <- <-]. exists parts. split_and!; [|done|done].
      by apply (NoDup_fmap PyStr).
    + destruct (py_join "," (set_difference requested (PyStr <$> support)) log1)
        as [[joined|e] log2] eqn:Hjoin; by py_bind Hjoin.
  - by py_bind Hset.
Qed.

(** X12: the string returned for a value other than [None] is the join of
    supported parts none of which comes twice, however often the value
    held it. *)
Theorem enf_parts_no_repeated_part resource support value s log log' :
  RESOURCE_PARTS_MAPPING !! resource = Some support →
  value ≠ PyNone →
  enf_parts resource value log = (Return (PyStr s), log') →
  ∃ parts, NoDup parts ∧ parts ⊆ support ∧ s = str_join "," parts.
Proof.
  intros Hkey Hnone Hreturn.
  cut (∃ items, enf_parts resource (PyList items) log = (Return (PyStr s), log')).
  { intros [items Hitems].
    destruct (enf_parts_list_NoDup _ _ _ _ _ _ Hkey Hitems) as (parts & ? & ? & [= ->]).
    by exists parts. }
  destruct value as [|s0|b|z|items|items|items]; try done.
  - exists (PyStr <$> str_split comma s0). by rewrite <- Hreturn.
  - exists items. by rewrite <- Hreturn.
  - exists items. by rewrite <- Hreturn.
  - exists items. by rewrite <- Hreturn.
Qed.

(** X13: [parts_validator] looks the resource up only when there are parts:
    for a resource that the table does not have, [None] passes, and any
    other value, a string or not, raises [KeyError] for the resource. *)
Theorem parts_validator_unknown resource log :
  RESOURCE_PARTS_MAPPING !! resource = None →
  parts_validator resource PyNone log = (Return PyNone, log)
  ∧ ∀ parts, parts ≠ PyNone →
      parts_validator resource parts log = (Raise (KeyError resource), log).
Proof.
  intros Hkey. split; [done|]. intros parts Hnone.
  unfold parts_validator, resource_parts, dict_getitem. rewrite Hkey.
  by destruct parts.
Qed.

(** X14: with a resource of the table, the exception of the call of [split]
    is not reported as INVALID_PARAMS and leaves the validator as it is:
    [AttributeError] for a value whose type has no [split] method, and
    [TypeError] for a [bytes] value. *)
Theorem parts_validator_split_raises resource support log :
  RESOURCE_PARTS_MAPPING !! resource = Some support →
  (∀ parts,
     parts ≠ PyNone → has_split parts = false →
     parts_validator resource parts log = (Raise AttributeError, log))
  ∧ (∀ b, parts_validator resource (PyBytes b) log = (Raise TypeError, log)).
Proof.
  intros Hkey. split.
  - intros parts Hnone Hsplit. unfold parts_validator.
    destruct parts; try done; csimpl; by py_bind (resource_parts_key _ _ log Hkey).
  - intros b. unfold parts_validator. csimpl.
    by py_bind (resource_parts_key _ _ log Hkey).
Qed.

(** X15: for a resource that the table does not have, [enf_parts] raises
    [KeyError] on [None], on a string and on a collection of values that can
    be hashed; a value of another type is still INVALID_PARAMS, as its type
    is looked at first. *)
Theorem enf_parts_unknown resource log :
  RESOURCE_PARTS_MAPPING !! resource = None →
  enf_parts resource PyNone log = (Raise (KeyError resource), log)
  ∧ (∀ s, enf_parts resource (PyStr s) log = (Raise (KeyError resource), log))
  ∧ (∀ value items,
       collection_items value = Some items → forallb hashable items = true →
       enf_parts resource value log = (Raise (KeyError resource), log))
  ∧ (∀ value,
       value ≠ PyNone → isinstance_str value = false →
       collection_items value = None →
       enf_parts resource value log
       = (Raise (PyYouTubeException INVALID_PARAMS (enf_message "parts")), log)).
Proof.
  intros Hkey.
  assert (∀ log1, resource_parts resource log1 = (Raise (KeyError resource), log1))
    as Hlookup.
  { intros log1. unfold resource_parts, dict_getitem. by rewrite Hkey. }
  split_and!.
  - unfold enf_parts. csimpl. by py_bind (Hlookup log).
  - intros s. unfold enf_parts. csimpl.
    destruct (py_set_strs (str_split comma s) log) as (parts & _ & Hset).
    rewrite <- (bind_mret (PyStr <$> str_split comma s) py_set) in Hset.
    py_bind Hset. by py_bind (Hlookup log).
  - intros value items Hitems Hhash.
    rewrite (enf_parts_collection _ _ _ _ Hitems).
    unfold enf_parts, py_set. csimpl. rewrite Hhash, bind_mret.
    by py_bind (Hlookup log).
  - intros value Hnone Hstr Hitems. by destruct value.
Qed.

(** X16: with a resource of the table, a list, tuple or set with an item
    that is not a string raises [TypeError], from [set] when an item cannot
    be hashed and else from the join of the unsupported parts; it is not
    reported as INVALID_PARAMS. *)
Theorem enf_parts_item_not_a_string resource support value items log :
  RESOURCE_PARTS_MAPPING !! resource = Some support →
  collection_items value = Some items →
  forallb isinstance_str items = false →
  enf_parts resource value log = (Raise TypeError, log).
Proof.
  intros Hkey Hitems (item & Hin & Hitem)%forallb_isinstance_str_false.
  rewrite (enf_parts_collection _ _ _ _ Hitems).
  unfold enf_parts, py_set. csimpl.
  destruct (forallb hashable items); [|done].
  rewrite bind_mret. py_bind (resource_parts_key _ _ log Hkey).
  assert (item ∈ set_order (remove_dups items)) as Hrequested
    by by rewrite set_order_perm, elem_of_remove_dups.
  destruct (set_issuperset (PyStr <$> support) (set_order (remove_dups items)))
    eqn:Hsuper; csimpl.
  - apply set_issuperset_inv in Hsuper as (parts & Heq & _).
    rewrite Heq in Hrequested.
    apply list_elem_of_fmap in Hrequested as (part & -> & _). done.
  - assert (py_join "," (set_difference (set_order (remove_dups items))
                           (PyStr <$> support)) log
            = (Raise TypeError, log)) as Hjoin.
    { unfold py_join. rewrite (forallb_isinstance_str_elem item); [done| |done].
      unfold set_difference. rewrite difference_order_perm.
      apply list_elem_of_filter. split; [|done].
      intros (part & -> & _)%list_elem_of_fmap. done. }
    by py_bind Hjoin.
Qed.

(** X17: the empty string is not an empty request.  It splits into one
    empty token, so when the empty string is not a part of the resource
    both [parts_validator] and [enf_parts] raise INVALID_PARAMS, naming an
    empty part. *)
Theorem empty_string_is_a_part resource support log :
  RESOURCE_PARTS_MAPPING !! resource = Some support →
  "" ∉ support →
  parts_validator resource (PyStr "") log
  = (Raise (PyYouTubeException INVALID_PARAMS
              ("Part  for resource " +:+ resource +:+ " not support")), log)
  ∧ enf_parts resource (PyStr "") log
    = (Raise (PyYouTubeException INVALID_PARAMS
                ("Parts  for resource " +:+ resource +:+ " not support")), log).
Proof.
  intros Hkey Hempty.
  assert (∀ log1, py_set [PyStr ""] log1 = (Return [PyStr ""], log1)) as Hset.
  { intros log1. unfold py_set. simpl.
    by rewrite (proj1 (Permutation_singleton_r _ _) (set_order_perm _)). }
  assert (set_issuperset (PyStr <$> support) [PyStr ""] = false) as Hsuper.
  { unfold set_issuperset. simpl. rewrite bool_decide_eq_false_2; [done|].
    by rewrite (list_elem_of_fmap_inj PyStr). }
  assert (set_difference [PyStr ""] (PyStr <$> support) = [PyStr ""]) as Hunsupported.
  { unfold set_difference. rewrite filter_cons, decide_True, filter_nil.
    - apply Permutation_singleton_r, difference_order_perm.
    - by rewrite (list_elem_of_fmap_inj PyStr). }
  split.
  - unfold parts_validator. csimpl.
    py_bind (resource_parts_key _ _ log Hkey).
    rewrite bind_mret. py_bind (Hset log).
    by rewrite Hsuper, Hunsupported.
  - unfold enf_parts. csimpl.
    pose proof (Hset log) as Hset'.
    rewrite <- (bind_mret [PyStr ""] py_set) in Hset'. py_bind Hset'.
    py_bind (resource_parts_key _ _ log Hkey).
    by rewrite Hsuper, Hunsupported.
Qed.

End params_checker.

(** ** The validators at work *)

Lemma insertion_order_perm items : insertion_order items ≡ₚ items.
Proof. done. Qed.

Lemma reverse_order_perm items : reverse_order items ≡ₚ items.
Proof. apply reverse_Permutation. Qed.

Example parts_message_videos :
  parts_message "Part" "bogus" "videos" = "Part bogus for resource videos not support".
Proof. reflexivity. Qed.

Example comma_separated_validator_bytes :
  comma_separated_validator [("a", PyBytes "x,y"); ("b", PyInt 1)] []
  = (Raise TypeError, []).
Proof. reflexivity. Qed.

Example parts_validator_supported :
  parts_validator sample_mapping insertion_order insertion_order
    "videos" (PyStr "id,snippet") []
  = (Return PyNone, []).
Proof. reflexivity. Qed.

Example parts_validator_unknown_resource :
  parts_validator sample_mapping insertion_order insertion_order
    "video" (PyStr "id") []
  = (Raise (KeyError "video"), []).
Proof. reflexivity. Qed.

Example parts_validator_not_str :
  parts_validator sample_mapping insertion_order insertion_order
    "videos" (PyList [PyStr "id"]) []
  = (Raise AttributeError, []).
Proof. reflexivity. Qed.

Example incompatible_validator_none_given :
  incompatible_validator [("a", PyNone); ("b", PyNone)] []
  = (Raise (PyYouTubeException MISSING_PARAMS "Specify at least one of a,b"), []).
Proof. reflexivity. Qed.

Example incompatible_validator_two_given :
  incompatible_validator [("a", PyStr "x"); ("b", PyStr "y")] []
  = (Raise (PyYouTubeException INVALID_PARAMS
              "Incompatible parameters specified for a,b"), []).
Proof. reflexivity. Qed.

Example incompatible_validator_one_given :
  incompatible_validator [("a", PyStr "x"); ("b", PyNone)] [] = (Return PyNone, []).
Proof. reflexivity. Qed.

Example enf_comma_separated_list :
  enf_comma_separated "ids" (PyList [PyStr "a"; PyStr "b"; PyStr "c"]) []
  = (Return (PyStr "a,b,c"), []).
Proof. reflexivity. Qed.

Example enf_comma_separated_set_of_int :
  enf_comma_separated "ids" (PySet [PyStr "a"; PyInt 1]) []
  = (Raise (PyYouTubeException INVALID_PARAMS
              "Parameter (ids) must be single str,comma-separated str,list,tuple or set"),
     [mkLogRecord WARNING "Note: The order of the set is unreliable."]).
Proof. reflexivity. Qed.

Example enf_parts_default :
  enf_parts sample_mapping insertion_order reverse_order "videos" PyNone []
  = (Return (PyStr "id,snippet,statistics"), []).
Proof. reflexivity. Qed.

Example enf_parts_bogus :
  enf_parts sample_mapping insertion_order reverse_order "videos" (PyStr "id,bogus") []
  = (Raise (PyYouTubeException INVALID_PARAMS
              "Parts bogus for resource videos not support"), []).
Proof. reflexivity. Qed.

Example enf_parts_repeated :
  enf_parts sample_mapping reverse_order insertion_order
    "videos" (PyList [PyStr "id"; PyStr "snippet"; PyStr "id"]) []
  = (Return (PyStr "id,snippet"), []).
Proof. reflexivity. Qed.

(** An item that is not a string is never a supported part, and joining the
    difference set then fails; an item that cannot be hashed makes [set]
    fail.  Neither is turned into a [PyYouTubeException]. *)
Example enf_parts_int_item :
  enf_parts sample_mapping insertion_order insertion_order
    "videos" (PyList [PyStr "id"; PyInt 1]) []
  = (Raise TypeError, []).
Proof. reflexivity. Qed.

Example enf_parts_unhashable_item :
  enf_parts sample_mapping insertion_order insertion_order
    "videos" (PyList [PyList [PyStr "id"]]) []
  = (Raise TypeError, []).
Proof. reflexivity. Qed.

(** ** Instances of the theorems *)

Lemma enf_comma_separated_cases_int :
  PyInt 123 ≠ PyNone
  ∧ enf_comma_separated "ids" (PyInt 123) []
    = (Raise (PyYouTubeException INVALID_PARAMS (enf_message "ids")), []).
Proof.
  split; [done|].
  apply (proj1 (proj2 (proj2 (proj2 (enf_comma_separated_cases "ids" []))))).
  - done.
  - reflexivity.
  - reflexivity.
Defined.

Lemma enf_parts_cases_videos :
  sample_mapping !! "videos" = Some ["id"; "snippet"; "statistics"]
  ∧ ∃ result,
      enf_parts sample_mapping insertion_order reverse_order
        "videos" (PyStr "id,bogus") []
      = (result, [])
      ∧ spec_validated "videos" ["id"; "snippet"; "statistics"]
          (str_split comma "id,bogus") result.
Proof.
  split; [reflexivity|].
  apply (proj1 (proj2 (enf_parts_cases sample_mapping insertion_order reverse_order
                         insertion_order_perm reverse_order_perm
                         "videos" ["id"; "snippet"; "statistics"] [] eq_refl))).
Defined.

Lemma parts_validator_cases_videos :
  sample_mapping !! "videos" = Some ["id"; "snippet"; "statistics"]
  ∧ parts_validator sample_mapping insertion_order reverse_order "videos" PyNone []
    = (Return PyNone, []).
Proof.
  split; [reflexivity|].
  apply (proj1 (parts_validator_cases sample_mapping insertion_order reverse_order
                  insertion_order_perm reverse_order_perm
                  "videos" ["id"; "snippet"; "statistics"] [] eq_refl)).
Defined.

Lemma comma_separated_validator_first_invalid_c :
  comma_separated_validator
    [("a", PyStr "x,y"); ("b", PyNone); ("c", PyInt 3); ("d", PyList [])] []
  = (Raise (PyYouTubeException INVALID_PARAMS
              "Parameter c must be str or comma-separated list str"), [])
  ∧ contains "c" "Parameter c must be str or comma-separated list str".
Proof.
  apply (comma_separated_validator_first_invalid
           [("a", PyStr "x,y"); ("b", PyNone)] "c" (PyInt 3) [("d", PyList [])] []).
  - repeat (constructor; [first [by left | right; by eexists]|]). constructor.
  - done.
  - reflexivity.
Defined.

Lemma comma_separated_validator_strings_ab :
  comma_separated_validator [("a", PyStr "x,y"); ("b", PyNone)] [] = (Return PyNone, []).
Proof.
  apply comma_separated_validator_strings.
  repeat (constructor; [first [by left | right; by eexists]|]). constructor.
Defined.

Lemma enf_parts_tokens_supported_videos :
  str_split comma "id,snippet" ⊆ ["id"; "snippet"; "statistics"].
Proof.
  apply (enf_parts_tokens_supported sample_mapping insertion_order reverse_order
           "videos" ["id"; "snippet"; "statistics"]
           (PyTuple [PyStr "id"; PyStr "snippet"]) "id,snippet" [] []).
  - reflexivity.
  - repeat constructor.
  - reflexivity.
  - done.
Defined.

Lemma enf_comma_separated_idempotent_list :
  enf_comma_separated "ids" (PyStr "a,b") [] = (Return (PyStr "a,b"), []).
Proof.
  apply (enf_comma_separated_idempotent "ids" (PyList [PyStr "a"; PyStr "b"]) "a,b" [] []).
  reflexivity.
Defined.

Lemma enf_comma_separated_set_ab :
  enf_comma_separated "ids" (PySet [PyStr "b"; PyStr "a"]) []
  = (Return (PyStr "b,a"),
     [mkLogRecord WARNING "Note: The order of the set is unreliable."]).
Proof.
  apply (enf_comma_separated_set "ids" {[ "a"; "b" ]} ["b"; "a"] []).
  vm_compute. apply perm_swap.
Defined.

Lemma enf_parts_empty_collection_videos :
  sample_mapping !! "videos" = Some ["id"; "snippet"; "statistics"]
  ∧ enf_parts sample_mapping insertion_order reverse_order "videos" (PyList []) []
    = (Return (PyStr ""), []).
Proof.
  split; [reflexivity|].
  apply (proj1 (enf_parts_empty_collection sample_mapping insertion_order reverse_order
                  insertion_order_perm
                  "videos" ["id"; "snippet"; "statistics"] [] eq_refl)).
Defined.

(** ** Where the specification says more than the code does *)

(** When two values are invalid the message names the first one only. *)
Lemma comma_separated_validator_second_invalid :
  ("z", PyInt 2) ∈ [("x", PyInt 1); ("z", PyInt 2)]
  ∧ PyInt 2 ≠ PyNone
  ∧ has_split (PyInt 2) = false
  ∧ comma_separated_validator [("x", PyInt 1); ("z", PyInt 2)] []
    = (Raise (PyYouTubeException INVALID_PARAMS
                "Parameter x must be str or comma-separated list str"), [])
  ∧ ¬ contains "z" "Parameter x must be str or comma-separated list str".
Proof.
  split_and!; [set_solver|done|done|done|].
  intros Hcontains%contains_occurs. discriminate Hcontains.
Qed.

(** On an empty collection the empty string is returned, and split on commas
    it is one empty token, which is not a part. *)
Lemma enf_parts_empty_list_token :
  sample_mapping !! "videos" = Some ["id"; "snippet"; "statistics"]
  ∧ enf_parts sample_mapping insertion_order insertion_order "videos" (PyList []) []
    = (Return (PyStr ""), [])
  ∧ ¬ (str_split comma "" ⊆ ["id"; "snippet"; "statistics"]).
Proof.
  split_and!; [done|done|].
  intros Hsub. pose proof (Hsub "" (list_elem_of_here _ _)) as Hin.
  by repeat (apply elem_of_cons in Hin as [?|Hin]; [done|]); apply elem_of_nil in Hin.
Qed.

(** ** Instances of the further properties *)

Lemma enf_comma_separated_split_ab :
  ∃ s,
    enf_comma_separated "ids" (PyList (PyStr <$> ["a"; "b"])) [] = (Return (PyStr s), [])
    ∧ str_split comma s = ["a"; "b"].
Proof.
  apply (enf_comma_separated_split ["a"; "b"] "ids" []).
  - done.
  - by repeat constructor.
Defined.

Lemma comma_separated_validator_bytes_TypeError_b :
  comma_separated_validator [("a", PyStr "x"); ("b", PyBytes "y"); ("c", PyInt 1)] []
  = (Raise TypeError, []).
Proof.
  apply (comma_separated_validator_bytes_TypeError
           [("a", PyStr "x")] "b" "y" [("c", PyInt 1)] []).
  repeat (constructor; [first [by left | right; by eexists]|]). constructor.
Defined.

Lemma comma_separated_validator_Return_ab :
  Forall (λ kv : string * pyval, kv.2 = PyNone ∨ has_split kv.2 = true)
    [("a", PyStr "x,y"); ("b", PyNone)]
  ∧ PyNone = PyNone.
Proof.
  apply (comma_separated_validator_Return
           [("a", PyStr "x,y"); ("b", PyNone)] PyNone [] []).
  reflexivity.
Defined.

Lemma incompatible_validator_Permutation_ab :
  incompatible_validator [("a", PyStr "x"); ("b", PyNone)] [] = (Return PyNone, [])
  ↔ incompatible_validator [("b", PyNone); ("a", PyStr "x")] [] = (Return PyNone, []).
Proof.
  apply (incompatible_validator_Permutation
           [("a", PyStr "x"); ("b", PyNone)] [("b", PyNone); ("a", PyStr "x")] []).
  apply perm_swap.
Defined.

Lemma enf_parts_parts_validator_videos :
  (∃ result,
     enf_parts sample_mapping insertion_order reverse_order
       "videos" (PyStr "id,snippet") []
     = (Return result, []))
  ↔ parts_validator sample_mapping insertion_order reverse_order
      "videos" (PyStr "id,snippet") []
    = (Return PyNone, []).
Proof.
  apply (enf_parts_parts_validator sample_mapping insertion_order reverse_order
           insertion_order_perm reverse_order_perm
           "videos" ["id"; "snippet"; "statistics"] "id,snippet" []).
  reflexivity.
Defined.

Lemma parts_validator_of_enf_parts_videos :
  parts_validator sample_mapping insertion_order reverse_order
    "videos" (PyStr "id,snippet") []
  = (Return PyNone, []).
Proof.
  apply (parts_validator_of_enf_parts sample_mapping insertion_order reverse_order
           insertion_order_perm reverse_order_perm
           "videos" ["id"; "snippet"; "statistics"]
           (PyList [PyStr "id"; PyStr "snippet"]) "id,snippet" [] [] []).
  - reflexivity.
  - by repeat constructor.
  - reflexivity.
  - done.
Defined.

Lemma enf_parts_of_enf_parts_videos :
  ∃ s',
    enf_parts sample_mapping reverse_order insertion_order
      "videos" (PyStr "snippet,id") []
    = (Return (PyStr s'), [])
    ∧ str_split comma s' ≡ₚ remove_dups (str_split comma "snippet,id").
Proof.
  apply (enf_parts_of_enf_parts sample_mapping reverse_order insertion_order
           reverse_order_perm insertion_order_perm
           "videos" ["id"; "snippet"; "statistics"]
           (PyList [PyStr "id"; PyStr "snippet"]) "snippet,id" [] [] []).
  - reflexivity.
  - by repeat constructor.
  - reflexivity.
  - done.
Defined.

Lemma enf_parts_no_repeated_part_videos :
  ∃ parts,
    NoDup parts ∧ parts ⊆ ["id"; "snippet"; "statistics"]
    ∧ "id,snippet" = str_join "," parts.
Proof.
  apply (enf_parts_no_repeated_part sample_mapping insertion_order reverse_order
           insertion_order_perm
           "videos" ["id"; "snippet"; "statistics"]
           (PyList [PyStr "id"; PyStr "id"; PyStr "snippet"]) "id,snippet" [] []).
  - reflexivity.
  - done.
  - reflexivity.
Defined.

Lemma parts_validator_unknown_playlists :
  sample_mapping !! "playlists" = None
  ∧ parts_validator sample_mapping insertion_order reverse_order
      "playlists" (PyInt 1) []
    = (Raise (KeyError "playlists"), []).
Proof.
  split; [reflexivity|].
  apply (proj2 (parts_validator_unknown sample_mapping insertion_order reverse_order
                  "playlists" [] eq_refl)).
  done.
Defined.

Lemma parts_validator_split_raises_int :
  sample_mapping !! "videos" = Some ["id"; "snippet"; "statistics"]
  ∧ parts_validator sample_mapping insertion_order reverse_order "videos" (PyInt 1) []
    = (Raise AttributeError, []).
Proof.
  split; [reflexivity|].
  apply (proj1 (parts_validator_split_raises sample_mapping insertion_order reverse_order
                  "videos" ["id"; "snippet"; "statistics"] [] eq_refl)).
  - done.
  - reflexivity.
Defined.

Lemma enf_parts_unknown_playlists :
  sample_mapping !! "playlists" = None
  ∧ enf_parts sample_mapping insertion_order reverse_order "playlists" PyNone []
    = (Raise (KeyError "playlists"), []).
Proof.
  split; [reflexivity|].
  apply (proj1 (enf_parts_unknown sample_mapping insertion_order reverse_order
                  insertion_order_perm "playlists" [] eq_refl)).
Defined.

Lemma enf_parts_item_not_a_string_videos :
  enf_parts sample_mapping insertion_order reverse_order
    "videos" (PyTuple [PyStr "id"; PyInt 1]) []
  = (Raise TypeError, []).
Proof.
  apply (enf_parts_item_not_a_string sample_mapping insertion_order reverse_order
           insertion_order_perm reverse_order_perm
           "videos" ["id"; "snippet"; "statistics"]
           (PyTuple [PyStr "id"; PyInt 1]) [PyStr "id"; PyInt 1] []).
  - reflexivity.
  - reflexivity.
  - reflexivity.
Defined.

Lemma empty_string_is_a_part_videos :
  parts_validator sample_mapping insertion_order reverse_order "videos" (PyStr "") []
  = (Raise (PyYouTubeException INVALID_PARAMS "Part  for resource videos not support"),
     [])
  ∧ enf_parts sample_mapping insertion_order reverse_order "videos" (PyStr "") []
    = (Raise (PyYouTubeException INVALID_PARAMS "Parts  for resource videos not support"),
       []).
Proof.
  apply (empty_string_is_a_part sample_mapping insertion_order reverse_order
           insertion_order_perm reverse_order_perm
           "videos" ["id"; "snippet"; "statistics"] []).
  - reflexivity.
  - apply (bool_decide_eq_false_1 ("" ∈ ["id"; "snippet"; "statistics"])).
    reflexivity.
Defined.

(** ** Where the code does less than its documentation says *)

(** C2, where the code departs from it: for a resource of the table and the
    list of the string id and the integer 1, the requested set is not a
    subset of the supported parts, and joining the unsupported parts for the
    message raises [TypeError].  That exception leaves [enf_parts]; no
    [PyYouTubeException] of kind INVALID_PARAMS is raised, though the
    docstring promises one and [enf_comma_separated] turns the same failure
    into one. *)
Theorem enf_parts_list_with_int :
  sample_mapping !! "videos" = Some ["id"; "snippet"; "statistics"]
  ∧ enf_parts sample_mapping insertion_order insertion_order
      "videos" (PyList [PyStr "id"; PyInt 1]) []
    = (Raise TypeError, [])
  ∧ enf_comma_separated "parts" (PyList [PyStr "id"; PyInt 1]) []
    = (Raise (PyYouTubeException INVALID_PARAMS (enf_message "parts")), []).
Proof. split_and!; reflexivity. Qed.
